(** * create-t3-app: [runPkgManagerInstall]

    A shallow embedding of [src/utils/runPkgManagerInstall.ts] and the
    properties of the command line it builds and of the single call to
    [execa] it makes.

    The TypeScript function builds one string with a template literal,

      [`${installCmd} ${flag} ${packages.join(" ")}`]

    and awaits [execa(fullCmd, { cwd: projectDir })].  Strings are Rocq
    [string]s, [packages] is a [list string], the asynchronous function is
    a small tree of calls to [execa] ([Async]) that a host interprets. *)

From Stdlib Require Import String Ascii List Bool ZArith Lia.
Import ListNotations.

Local Open Scope list_scope.
Local Open Scope string_scope.

(** ** Strings as JavaScript uses them here *)

Module Js.

(** [Array.prototype.join] on an array of strings: the elements in order,
    [sep] between two neighbours, the empty string for the empty array. *)
Fixpoint join (sep : string) (xs : list string) : string :=
  match xs with
  | [] => ""
  | [x] => x
  | x :: rest => x ++ sep ++ join sep rest
  end.

(** [String.prototype.startsWith]. *)
Fixpoint startsWith (p s : string) : bool :=
  match p, s with
  | EmptyString, _ => true
  | String a p', String b s' => Ascii.eqb a b && startsWith p' s'
  | String _ _, EmptyString => false
  end.

(** [String.prototype.split] with a separator of one character: the
    pieces between the separators, empty pieces kept; the empty string
    splits into one empty piece. *)
Fixpoint split (sep : ascii) (s : string) : list string :=
  match s with
  | EmptyString => [""]
  | String c s' =>
      if Ascii.eqb c sep then "" :: split sep s'
      else match split sep s' with
           | [] => [String c ""]
           | w :: ws => String c w :: ws
           end
  end.

End Js.

(** ** The request: the [opts] object of [runPkgManagerInstall] *)

(** [PackageManager] is a union of string literals; at run time the field
    is a string, and the function compares it with ["yarn"] only. *)
Definition PackageManager := string.

(** Modelled from the spec: the type [PackageManager] of
    [./getUserPkgManager] (not in src), the closed set of supported
    identifiers "npm", "yarn", "pnpm", "bun". *)
Definition supported (pm : PackageManager) : bool :=
  String.eqb pm "npm" || String.eqb pm "yarn" ||
  String.eqb pm "pnpm" || String.eqb pm "bun".

Record Opts : Type := mkOpts {
  packageManager : PackageManager;
  devMode : bool;
  projectDir : string;
  packages : list string
}.

(** ** Command construction (lines 12-17 of the source) *)

Definition installCmd (pm : PackageManager) : string :=
  if String.eqb pm "yarn" then pm ++ " add" else pm ++ " install".

Definition flag (dev : bool) : string :=
  if dev then "-D" else "".

Definition fullCmd (opts : Opts) : string :=
  installCmd (packageManager opts) ++ " " ++ flag (devMode opts) ++ " "
    ++ Js.join " " (packages opts).

(** ** The call to [execa] (line 18) *)

(** The options object handed to [execa]: only [cwd] is set. *)
Record ExecOptions : Type := mkExecOptions { cwd : string }.

(** What a fulfilled [execa] promise carries. *)
Record ExecOutput : Type := mkExecOutput { stdout : string; stderr : string }.

(** The error taxonomy of the spec (section 7). *)
Inductive InstallError : Type :=
| ConfigurationError
| ExecutableNotFoundError
| ProcessExecutionError (exitCode : Z) (diagnostic : option string).

(** An asynchronous computation that may call [execa]: it resolves, it
    rejects, or it awaits a call to [execa] and goes on with what the
    promise was fulfilled with.  The source has no [try]/[catch], so a
    rejected [execa] rejects the whole computation; that is the
    interpreter's business ([run] below). *)
Inductive Async (A : Type) : Type :=
| Resolve (a : A)
| Reject (e : InstallError)
| Execa (cmd : string) (options : ExecOptions) (k : ExecOutput -> Async A).

Arguments Resolve {A} a.
Arguments Reject {A} e.
Arguments Execa {A} cmd options k.

Fixpoint bind {A B : Type} (m : Async A) (f : A -> Async B) : Async B :=
  match m with
  | Resolve a => f a
  | Reject e => Reject e
  | Execa cmd o k => Execa cmd o (fun out => bind (k out) f)
  end.

Definition await_execa (cmd : string) (o : ExecOptions) : Async ExecOutput :=
  Execa cmd o (fun out => Resolve out).

Notation "'await' m ;; k" := (bind m (fun _ => k))
  (at level 61, m at next level, right associativity).

(** [runPkgManagerInstall]: build the command, await [execa], return
    nothing. *)
Definition runPkgManagerInstall (opts : Opts) : Async unit :=
  await await_execa (fullCmd opts) {| cwd := projectDir opts |} ;;
  Resolve tt.

(** ** The host: child processes *)

(** A child process that was asked for: the command line and the working
    directory. *)
Record Spawn : Type := mkSpawn { spawn_cmd : string; spawn_cwd : string }.

(** How the child ends: it could not be launched, or it ran and exited
    with a status, having written its two streams. *)
Inductive ChildEnd : Type :=
| LaunchFailed
| Exited (status : Z) (out err : string).

(** The operating system, as far as this function can tell: what happens
    to each child it asks for. *)
Definition Host := Spawn -> ChildEnd.

(** The settled state of a promise. *)
Inductive Settled (A : Type) : Type :=
| Fulfilled (a : A)
| Rejected (e : InstallError).

Arguments Fulfilled {A} a.
Arguments Rejected {A} e.

(** Modelled from the spec: [execa] of [./execAsync] (not in src).  It runs
    the command as a child process in [cwd]; the promise is fulfilled on a
    zero exit status, and rejected with [ProcessExecutionError] carrying the
    exit code and the captured standard error on a non-zero one, with
    [ExecutableNotFoundError] when the child cannot be launched. *)
Definition execa (host : Host) (cmd : string) (o : ExecOptions)
  : Settled ExecOutput * list Spawn :=
  let child := {| spawn_cmd := cmd; spawn_cwd := cwd o |} in
  match host child with
  | LaunchFailed => (Rejected ExecutableNotFoundError, [child])
  | Exited status out err =>
      if (status =? 0)%Z
      then (Fulfilled {| stdout := out; stderr := err |}, [child])
      else (Rejected (ProcessExecutionError status (Some err)), [child])
  end.

(** Running a computation on a host: how the promise settles, and the
    children that were asked for, in order. *)
Fixpoint run {A : Type} (host : Host) (m : Async A)
  : Settled A * list Spawn :=
  match m with
  | Resolve a => (Fulfilled a, [])
  | Reject e => (Rejected e, [])
  | Execa cmd o k =>
      match execa host cmd o with
      | (Fulfilled out, cs) =>
          let (r, cs') := run host (k out) in (r, (cs ++ cs')%list)
      | (Rejected e, cs) => (Rejected e, cs)
      end
  end.

Definition outcome {A : Type} (host : Host) (m : Async A) : Settled A :=
  fst (run host m).

Definition spawned {A : Type} (host : Host) (m : Async A) : list Spawn :=
  snd (run host m).

(** ** Reading a command line *)

Definition is_space (c : ascii) : bool := Ascii.eqb c " ".

(** No space in the string. *)
Fixpoint no_space (s : string) : bool :=
  match s with
  | EmptyString => true
  | String c s' => negb (is_space c) && no_space s'
  end.

(** A single token: not empty and no space in it. *)
Definition token (s : string) : bool :=
  negb (String.eqb s "") && no_space s.

Definition starts_space (s : string) : bool :=
  match s with
  | EmptyString => false
  | String c _ => is_space c
  end.

(** Two spaces in a row somewhere in the string. *)
Fixpoint consecutive_spaces (s : string) : bool :=
  match s with
  | EmptyString => false
  | String c s' => (is_space c && starts_space s') || consecutive_spaces s'
  end.

(** The pieces of a command line between single spaces, and its tokens:
    the pieces that are not empty. *)
Definition pieces (cmd : string) : list string := Js.split " " cmd.

Definition words (cmd : string) : list string :=
  filter (fun w => negb (String.eqb w "")) (pieces cmd).

(** ** The scenarios of the spec, and a few more requests *)

Definition scenario1 : Opts :=
  mkOpts "npm" false "/tmp/proj" ["zod"].

Definition scenario2 : Opts :=
  mkOpts "yarn" true "/tmp/proj" ["typescript"; "eslint"].

Definition pnpm_dev : Opts :=
  mkOpts "pnpm" true "/srv/app" ["prisma"; "zod@3.22.0"].

Definition npm_bare : Opts :=
  mkOpts "npm" false "/tmp/proj" [].

Definition cargo_request : Opts :=
  mkOpts "cargo" false "/tmp/proj" ["serde"].

Definition dash_D_package : Opts :=
  mkOpts "npm" false "/tmp/proj" ["-D"].

(** Hosts on which every child exits with the same status. *)
Definition host_exit (status : Z) : Host :=
  fun _ => Exited status "" "".

Definition host_ok : Host := host_exit 0.

Definition host_fails : Host :=
  fun _ => Exited 1 "" "ERR_PNPM_FETCH_404".

(** ** Any implementation of [execa] *)

(** What [runPkgManagerInstall] needs of the imported [execa]: given the
    command and the options, how the promise settles and the children that
    were asked for. *)
Definition ExecaImpl : Type :=
  string -> ExecOptions -> Settled ExecOutput * list Spawn.

(** [run] with the implementation of [execa] left open; [run host] is
    [run_with (execa host)]. *)
Fixpoint run_with {A : Type} (impl : ExecaImpl) (m : Async A)
  : Settled A * list Spawn :=
  match m with
  | Resolve a => (Fulfilled a, [])
  | Reject e => (Rejected e, [])
  | Execa cmd o k =>
      match impl cmd o with
      | (Fulfilled out, cs) =>
          let (r, cs') := run_with impl (k out) in (r, (cs ++ cs')%list)
      | (Rejected e, cs) => (Rejected e, cs)
      end
  end.

(** The verb that follows the manager in [installCmd]. *)
Definition verb (pm : PackageManager) : string :=
  if String.eqb pm "yarn" then "add" else "install".

(** ** Lemmas on strings *)

Lemma append_nil_r (s : string) : s ++ "" = s.
Proof. induction s as [|c s IH]; simpl; [reflexivity | now rewrite IH]. Qed.

Lemma append_assoc (a b c : string) : (a ++ b) ++ c = a ++ (b ++ c).
Proof. induction a as [|x a IH]; simpl; [reflexivity | now rewrite IH]. Qed.

Lemma startsWith_append (p t : string) : Js.startsWith p (p ++ t) = true.
Proof.
  induction p as [|c p IH]; simpl; [reflexivity |].
  now rewrite Ascii.eqb_refl, IH.
Qed.

Lemma split_not_nil (sep : ascii) (s : string) : Js.split sep s <> [].
Proof.
  destruct s as [|c s]; simpl; [discriminate |].
  destruct (Ascii.eqb c sep); [discriminate |].
  destruct (Js.split sep s); discriminate.
Qed.

(** Splitting at a separator splits the list of pieces there. *)
Lemma split_append_sep (sep : ascii) (a b : string) :
  Js.split sep (a ++ String sep b) = (Js.split sep a ++ Js.split sep b)%list.
Proof.
  induction a as [|c a IH]; simpl.
  - now rewrite Ascii.eqb_refl.
  - destruct (Ascii.eqb c sep).
    + now rewrite IH.
    + rewrite IH.
      destruct (Js.split sep a) as [|w ws] eqn:E; [|reflexivity].
      now apply split_not_nil in E.
Qed.

Lemma split_no_space (s : string) :
  no_space s = true -> Js.split " " s = [s].
Proof.
  induction s as [|c s IH]; simpl; [reflexivity |].
  unfold is_space. intros H. apply andb_true_iff in H as [Hc Hs].
  apply negb_true_iff in Hc. rewrite Hc, (IH Hs). reflexivity.
Qed.

(** [split] undoes [join] on names without spaces. *)
Lemma split_join (ps : list string) :
  ps <> [] -> forallb no_space ps = true ->
  Js.split " " (Js.join " " ps) = ps.
Proof.
  induction ps as [|p ps IH]; [congruence |].
  intros _ H. simpl in H. apply andb_true_iff in H as [Hp Hps].
  destruct ps as [|q ps].
  - simpl. now apply split_no_space.
  - change (Js.join " " (p :: q :: ps))
      with (p ++ String " " (Js.join " " (q :: ps))).
    rewrite split_append_sep, (split_no_space _ Hp), IH;
      [reflexivity | discriminate | assumption].
Qed.

(** A name sits in the joined list between the names before it and the
    names after it, a separator on each side where there is a neighbour. *)
Lemma join_middle (sep : string) (before : list string) (p : string)
      (after : list string) :
  Js.join sep (before ++ p :: after) =
    (Js.join sep before ++ match before with [] => "" | _ => sep end)
      ++ p ++ (match after with [] => "" | _ => sep end ++ Js.join sep after).
Proof.
  induction before as [|x before IH].
  - destruct after as [|y after]; simpl; [now rewrite append_nil_r | reflexivity].
  - change ((x :: before) ++ p :: after)%list
      with (x :: (before ++ p :: after))%list.
    destruct before as [|x' before].
    + destruct after as [|y after]; simpl.
      * now rewrite append_nil_r, append_assoc.
      * now rewrite !append_assoc.
    + change (Js.join sep (x :: (x' :: before) ++ p :: after))
        with (x ++ sep ++ Js.join sep ((x' :: before) ++ p :: after)).
      rewrite IH.
      change (Js.join sep (x :: x' :: before))
        with (x ++ sep ++ Js.join sep (x' :: before)).
      now rewrite !append_assoc.
Qed.

(** ** Lemmas on spaces *)

Lemma consecutive_spaces_skip (w t : string) :
  no_space w = true ->
  consecutive_spaces (w ++ t) = consecutive_spaces t.
Proof.
  induction w as [|c w IH]; simpl; [reflexivity |].
  intros H. apply andb_true_iff in H as [Hc Hw].
  apply negb_true_iff in Hc. now rewrite Hc, (IH Hw).
Qed.

Lemma consecutive_spaces_no_space (w : string) :
  no_space w = true -> consecutive_spaces w = false.
Proof.
  intros H. rewrite <- (append_nil_r w).
  now rewrite consecutive_spaces_skip.
Qed.

Lemma consecutive_spaces_two (a b : string) :
  consecutive_spaces (a ++ String " " (String " " b)) = true.
Proof.
  induction a as [|c a IH]; simpl; [reflexivity |].
  rewrite IH. apply orb_true_r.
Qed.

Lemma starts_space_token (p t : string) :
  token p = true -> starts_space (p ++ t) = false.
Proof.
  unfold token. destruct p as [|c p]; simpl; [discriminate |].
  intros H. apply andb_true_iff in H as [Hc _].
  now apply negb_true_iff in Hc.
Qed.

Lemma token_no_space (p : string) : token p = true -> no_space p = true.
Proof. unfold token. intros H. now apply andb_true_iff in H as [_ H]. Qed.

(** Tokens joined with single spaces: no space in front, no two in a row. *)
Lemma join_tokens_spaces (ps : list string) :
  forallb token ps = true ->
  starts_space (Js.join " " ps) = false /\
  consecutive_spaces (Js.join " " ps) = false.
Proof.
  induction ps as [|p ps IH]; [now split |].
  intros H. simpl in H. apply andb_true_iff in H as [Hp Hps].
  destruct (IH Hps) as [IH1 IH2]. clear IH.
  destruct ps as [|q ps].
  - simpl. split.
    + rewrite <- (append_nil_r p). now apply starts_space_token.
    + apply consecutive_spaces_no_space. now apply token_no_space.
  - change (Js.join " " (p :: q :: ps))
      with (p ++ String " " (Js.join " " (q :: ps))).
    split; [now apply starts_space_token |].
    rewrite consecutive_spaces_skip by now apply token_no_space.
    cbn [consecutive_spaces]. rewrite IH1, IH2. reflexivity.
Qed.

(** ** The command line, piece by piece *)

Lemma installCmd_yarn : installCmd "yarn" = "yarn add".
Proof. reflexivity. Qed.

Lemma installCmd_other (pm : PackageManager) :
  pm <> "yarn" -> installCmd pm = pm ++ " install".
Proof.
  intros H. unfold installCmd. apply String.eqb_neq in H. now rewrite H.
Qed.

(** The template literal is a [join] of its three holes. *)
Lemma fullCmd_join (opts : Opts) :
  fullCmd opts =
    Js.join " " [installCmd (packageManager opts); flag (devMode opts);
                 Js.join " " (packages opts)].
Proof. reflexivity. Qed.

Lemma pieces_fullCmd (opts : Opts) :
  pieces (fullCmd opts) =
    (pieces (installCmd (packageManager opts))
       ++ pieces (flag (devMode opts))
       ++ pieces (Js.join " " (packages opts)))%list.
Proof.
  unfold pieces, fullCmd.
  change (" " ++ flag (devMode opts) ++ " " ++ Js.join " " (packages opts))
    with (String " " (flag (devMode opts)
                        ++ String " " (Js.join " " (packages opts)))).
  now rewrite !split_append_sep.
Qed.

Lemma pieces_flag (dev : bool) : pieces (flag dev) = [flag dev].
Proof. now destruct dev. Qed.

Lemma pieces_installCmd (pm : PackageManager) :
  pieces (installCmd pm) =
    (pieces pm ++ [if String.eqb pm "yarn" then "add" else "install"])%list.
Proof.
  unfold pieces, installCmd.
  destruct (String.eqb pm "yarn");
    [change (pm ++ " add") with (pm ++ String " " "add")
    |change (pm ++ " install") with (pm ++ String " " "install")];
    now rewrite split_append_sep.
Qed.

(** ** The call to [execa] *)

(** The function is one call to [execa], then nothing. *)
Lemma runPkgManagerInstall_call (opts : Opts) :
  runPkgManagerInstall opts =
    Execa (fullCmd opts) {| cwd := projectDir opts |} (fun _ => Resolve tt).
Proof. reflexivity. Qed.

Lemma run_runPkgManagerInstall (host : Host) (opts : Opts) :
  run host (runPkgManagerInstall opts) =
    let child := mkSpawn (fullCmd opts) (projectDir opts) in
    (match host child with
     | LaunchFailed => Rejected ExecutableNotFoundError
     | Exited status _ err =>
         if (status =? 0)%Z then Fulfilled tt
         else Rejected (ProcessExecutionError status (Some err))
     end, [child]).
Proof.
  cbn -[fullCmd]. unfold execa. cbn -[fullCmd].
  destruct (host _) as [|status out err]; [reflexivity |].
  now destruct (status =? 0)%Z.
Qed.

Lemma spawned_runPkgManagerInstall (host : Host) (opts : Opts) :
  spawned host (runPkgManagerInstall opts) =
    [mkSpawn (fullCmd opts) (projectDir opts)].
Proof. unfold spawned. now rewrite run_runPkgManagerInstall. Qed.

Lemma words_append (xs ys : list string) :
  filter (fun w => negb (String.eqb w "")) (xs ++ ys) =
    (filter (fun w => negb (String.eqb w "")) xs
       ++ filter (fun w => negb (String.eqb w "")) ys)%list.
Proof. apply filter_app. Qed.

Lemma words_fullCmd (opts : Opts) :
  words (fullCmd opts) =
    (words (installCmd (packageManager opts))
       ++ words (flag (devMode opts))
       ++ words (Js.join " " (packages opts)))%list.
Proof. unfold words. now rewrite pieces_fullCmd, !words_append. Qed.

Lemma words_flag (dev : bool) :
  words (flag dev) = if dev then ["-D"] else [].
Proof. now destruct dev. Qed.

Lemma words_installCmd (pm : PackageManager) :
  words (installCmd pm) =
    (words pm ++ [if String.eqb pm "yarn" then "add" else "install"])%list.
Proof.
  unfold words. rewrite pieces_installCmd, words_append.
  now destruct (String.eqb pm "yarn").
Qed.

(** * Properties of the specification *)

(** C1: for every request, if [packageManager] is "yarn" the command starts
    with "yarn add", and for every other identifier (the supported ones
    among them) it starts with the identifier followed by " install". *)
Theorem base_subcommand (opts : Opts) :
  (packageManager opts = "yarn" ->
   Js.startsWith "yarn add" (fullCmd opts) = true) /\
  (packageManager opts <> "yarn" ->
   Js.startsWith (packageManager opts ++ " install") (fullCmd opts) = true).
Proof.
  unfold fullCmd. split; intros H.
  - rewrite H, installCmd_yarn. apply startsWith_append.
  - rewrite (installCmd_other _ H). apply startsWith_append.
Qed.

Lemma base_subcommand_witness :
  Js.startsWith "yarn add" (fullCmd scenario2) = true /\
  Js.startsWith "pnpm install" (fullCmd pnpm_dev) = true.
Proof.
  split.
  - apply (proj1 (base_subcommand scenario2)). reflexivity.
  - apply (proj2 (base_subcommand pnpm_dev)). discriminate.
Defined.

(** C2, as the spec states it, fails: the request for the unsupported
    manager "cargo" is not rejected with [ConfigurationError]; its command
    is built and a child process is asked for. *)
Lemma unsupported_manager_is_run :
  supported (packageManager cargo_request) = false /\
  outcome host_ok (runPkgManagerInstall cargo_request)
    <> Rejected ConfigurationError /\
  spawned host_ok (runPkgManagerInstall cargo_request)
    = [mkSpawn "cargo install  serde" "/tmp/proj"].
Proof. repeat split. discriminate. Qed.

(** C2, amended: the function never looks at [packageManager] except to
    compare it with "yarn".  For every request, supported manager or not,
    it builds the command and calls [execa] once, so exactly one child
    process is asked for, and it never fails with [ConfigurationError]. *)
Theorem no_manager_check (host : Host) (opts : Opts) :
  runPkgManagerInstall opts =
    Execa (fullCmd opts) {| cwd := projectDir opts |} (fun _ => Resolve tt) /\
  spawned host (runPkgManagerInstall opts) =
    [mkSpawn (fullCmd opts) (projectDir opts)] /\
  outcome host (runPkgManagerInstall opts) <> Rejected ConfigurationError.
Proof.
  split; [apply runPkgManagerInstall_call |].
  split; [apply spawned_runPkgManagerInstall |].
  unfold outcome. rewrite run_runPkgManagerInstall. cbn -[fullCmd].
  destruct (host _) as [|status out err]; [discriminate |].
  destruct (status =? 0)%Z; discriminate.
Qed.

(** C3, as the spec states it, fails: with [devMode] false the flag is an
    empty placeholder, and the command of scenario 1 has two spaces in a
    row. *)
Lemma scenario1_two_spaces :
  devMode scenario1 = false /\
  flag (devMode scenario1) = "" /\
  consecutive_spaces (fullCmd scenario1) = true.
Proof. repeat split. Qed.

(** C3, amended: the command is the subcommand, the flag and the joined
    packages, joined with single spaces, the flag being the empty string
    when [devMode] is false.  So with [devMode] false the command has two
    spaces in a row; with [devMode] true, a manager name without spaces and
    package names that are tokens, it has none. *)
Theorem single_spaces (opts : Opts) :
  fullCmd opts =
    Js.join " " [installCmd (packageManager opts); flag (devMode opts);
                 Js.join " " (packages opts)] /\
  (devMode opts = false -> consecutive_spaces (fullCmd opts) = true) /\
  (devMode opts = true ->
   no_space (packageManager opts) = true ->
   forallb token (packages opts) = true ->
   consecutive_spaces (fullCmd opts) = false).
Proof.
  split; [apply fullCmd_join |]. unfold fullCmd. split.
  - intros ->. apply consecutive_spaces_two.
  - intros -> Hpm Hps.
    destruct (join_tokens_spaces _ Hps) as [H1 H2].
    unfold installCmd.
    destruct (String.eqb (packageManager opts) "yarn");
      rewrite append_assoc, (consecutive_spaces_skip _ _ Hpm);
      cbn -[Js.join]; now rewrite H1, H2.
Qed.

Lemma single_spaces_witness :
  consecutive_spaces (fullCmd scenario1) = true /\
  consecutive_spaces (fullCmd scenario2) = false.
Proof.
  split.
  - apply (proj1 (proj2 (single_spaces scenario1))). reflexivity.
  - apply (proj2 (proj2 (single_spaces scenario2))); reflexivity.
Defined.

(** C4, as the spec states it, fails in its second half: with [devMode]
    false the token "-D" is in the command when it is one of the packages. *)
Lemma dash_D_without_devMode :
  devMode dash_D_package = false /\
  fullCmd dash_D_package = "npm install  -D" /\
  In "-D" (words (fullCmd dash_D_package)).
Proof. repeat split. vm_compute. auto. Qed.

(** C4, amended: with [devMode] true the token "-D" comes right after the
    tokens of the install/add subcommand, before those of the packages.
    With [devMode] false the flag gives no token: the tokens of the command
    are those of the subcommand and those of the packages, so that "-D" is
    among them exactly when it is a token of the manager string or of the
    joined packages. *)
Theorem dev_flag_token (opts : Opts) :
  (devMode opts = true ->
   words (fullCmd opts) =
     (words (installCmd (packageManager opts))
        ++ "-D" :: words (Js.join " " (packages opts)))%list) /\
  (devMode opts = false ->
   words (fullCmd opts) =
     (words (installCmd (packageManager opts))
        ++ words (Js.join " " (packages opts)))%list /\
   (In "-D" (words (fullCmd opts)) <->
    In "-D" (words (packageManager opts)) \/
    In "-D" (words (Js.join " " (packages opts))))).
Proof.
  split; intros H; rewrite words_fullCmd, H, words_flag; cbn [app].
  - reflexivity.
  - split; [reflexivity |].
    rewrite words_installCmd, !in_app_iff. cbn [In].
    destruct (String.eqb (packageManager opts) "yarn");
      intuition discriminate.
Qed.

Lemma dev_flag_token_witness :
  words (fullCmd scenario2) = ["yarn"; "add"; "-D"; "typescript"; "eslint"] /\
  words (fullCmd scenario1) = ["npm"; "install"; "zod"].
Proof.
  split.
  - apply (proj1 (dev_flag_token scenario2)). reflexivity.
  - apply (proj2 (dev_flag_token scenario1)). reflexivity.
Defined.

(** C5: for every request with a non-empty [packages], every package name
    is in the command, after the subcommand and the flag, preceded by
    exactly the names before it and followed by exactly the names after it,
    single spaces in between; and when no name has a space in it, the
    pieces of the command after the flag are the packages themselves, in
    order, none twice, none missing. *)
Theorem packages_in_order (opts : Opts) :
  packages opts <> [] ->
  (forall before p after,
     packages opts = (before ++ p :: after)%list ->
     fullCmd opts =
       (installCmd (packageManager opts) ++ " " ++ flag (devMode opts) ++ " "
          ++ Js.join " " before ++ match before with [] => "" | _ => " " end)
         ++ p
         ++ (match after with [] => "" | _ => " " end ++ Js.join " " after)) /\
  (forallb no_space (packages opts) = true ->
   pieces (fullCmd opts) =
     (pieces (installCmd (packageManager opts))
        ++ flag (devMode opts) :: packages opts)%list).
Proof.
  intros Hne. split.
  - intros before p after H. unfold fullCmd.
    rewrite H, join_middle, !append_assoc. reflexivity.
  - intros H. rewrite pieces_fullCmd, pieces_flag. unfold pieces at 2.
    now rewrite (split_join _ Hne H).
Qed.

Lemma packages_in_order_witness :
  fullCmd scenario2 = "yarn add -D typescript" ++ " eslint" /\
  pieces (fullCmd scenario2) = ["yarn"; "add"; "-D"; "typescript"; "eslint"].
Proof.
  assert (Hne : packages scenario2 <> []) by discriminate.
  split.
  - apply (proj1 (packages_in_order scenario2 Hne)
             ["typescript"] "eslint" []). reflexivity.
  - apply (proj2 (packages_in_order scenario2 Hne)). reflexivity.
Defined.

(** C6: for the request of scenario 1 the command is exactly
    "npm install  zod", two spaces between "install" and "zod", and it is
    handed to [execa] with [cwd] "/tmp/proj": on every host one child
    process is asked for, with that command, in that directory. *)
Theorem scenario1_command (host : Host) :
  fullCmd scenario1 = "npm install  zod" /\
  runPkgManagerInstall scenario1 =
    Execa "npm install  zod" {| cwd := "/tmp/proj" |} (fun _ => Resolve tt) /\
  spawned host (runPkgManagerInstall scenario1) =
    [mkSpawn "npm install  zod" "/tmp/proj"].
Proof.
  split; [reflexivity |]. split; [reflexivity |].
  apply spawned_runPkgManagerInstall.
Qed.

(** C7: for the request of scenario 2 the command is exactly
    "yarn add -D typescript eslint". *)
Theorem scenario2_command :
  fullCmd scenario2 = "yarn add -D typescript eslint" /\
  runPkgManagerInstall scenario2 =
    Execa "yarn add -D typescript eslint" {| cwd := "/tmp/proj" |}
      (fun _ => Resolve tt).
Proof. split; reflexivity. Qed.

(** C8: for every request, when the child process exits with status 0 the
    function resolves with no value, and when it exits with another status
    the function fails with an error that carries this exit code. *)
Theorem exit_status_decides (host : Host) (opts : Opts)
        (status : Z) (out err : string) :
  host (mkSpawn (fullCmd opts) (projectDir opts)) = Exited status out err ->
  (status = 0%Z ->
   outcome host (runPkgManagerInstall opts) = Fulfilled tt) /\
  (status <> 0%Z ->
   outcome host (runPkgManagerInstall opts) =
     Rejected (ProcessExecutionError status (Some err))).
Proof.
  intros H. unfold outcome. rewrite run_runPkgManagerInstall.
  cbn -[fullCmd]. rewrite H. split; intros Hs.
  - now rewrite Hs.
  - apply Z.eqb_neq in Hs. now rewrite Hs.
Qed.

Lemma exit_status_decides_witness :
  outcome host_ok (runPkgManagerInstall scenario1) = Fulfilled tt /\
  outcome host_fails (runPkgManagerInstall scenario1) =
    Rejected (ProcessExecutionError 1 (Some "ERR_PNPM_FETCH_404")).
Proof.
  split.
  - apply (proj1 (exit_status_decides host_ok scenario1 0 "" ""
                    eq_refl)). reflexivity.
  - apply (proj2 (exit_status_decides host_fails scenario1 1 ""
                    "ERR_PNPM_FETCH_404" eq_refl)). discriminate.
Defined.

(** C9, as the spec states it, fails in its example: for npm with [devMode]
    false and no packages the command is "npm install" followed by two
    spaces, not by one. *)
Lemma npm_bare_command :
  packages npm_bare = [] /\
  fullCmd npm_bare = "npm install  " /\
  fullCmd npm_bare <> "npm install ".
Proof. repeat split. discriminate. Qed.

(** C9, amended: for every request whose [packages] is empty the function
    still builds a command, the subcommand, a space, the flag and a space
    (for npm with [devMode] false "npm install" and two spaces), with no
    package token, and still calls [execa]: one child process is asked
    for. *)
Theorem empty_packages_still_run (host : Host) (opts : Opts) :
  packages opts = [] ->
  fullCmd opts =
    installCmd (packageManager opts) ++ " " ++ flag (devMode opts) ++ " " /\
  words (fullCmd opts) =
    (words (installCmd (packageManager opts))
       ++ if devMode opts then ["-D"] else [])%list /\
  spawned host (runPkgManagerInstall opts) =
    [mkSpawn (fullCmd opts) (projectDir opts)].
Proof.
  intros H. split; [| split].
  - unfold fullCmd. rewrite H. reflexivity.
  - rewrite words_fullCmd, words_flag, H. cbn [Js.join].
    change (words "") with (@nil string). now rewrite app_nil_r.
  - apply spawned_runPkgManagerInstall.
Qed.

Lemma empty_packages_still_run_witness :
  fullCmd npm_bare = "npm install" ++ " " ++ "" ++ " " /\
  words (fullCmd npm_bare) = ["npm"; "install"] /\
  spawned host_ok (runPkgManagerInstall npm_bare) =
    [mkSpawn (fullCmd npm_bare) "/tmp/proj"].
Proof. apply (empty_packages_still_run host_ok npm_bare). reflexivity. Defined.

(** C10: two requests that agree on [packageManager], [devMode] and
    [packages] give the same command, whatever their [projectDir] and
    whatever the host; [projectDir] is the working directory of the child
    process and nothing else. *)
Theorem command_ignores_projectDir (host1 host2 : Host) (o1 o2 : Opts) :
  packageManager o1 = packageManager o2 ->
  devMode o1 = devMode o2 ->
  packages o1 = packages o2 ->
  fullCmd o1 = fullCmd o2 /\
  map spawn_cmd (spawned host1 (runPkgManagerInstall o1)) =
    map spawn_cmd (spawned host2 (runPkgManagerInstall o2)) /\
  map spawn_cwd (spawned host1 (runPkgManagerInstall o1)) = [projectDir o1] /\
  map spawn_cwd (spawned host2 (runPkgManagerInstall o2)) = [projectDir o2].
Proof.
  intros Hpm Hdev Hps.
  assert (E : fullCmd o1 = fullCmd o2)
    by (unfold fullCmd; now rewrite Hpm, Hdev, Hps).
  rewrite !spawned_runPkgManagerInstall. cbn [map spawn_cmd spawn_cwd].
  now rewrite E.
Qed.

Lemma command_ignores_projectDir_witness :
  fullCmd scenario1 = fullCmd (mkOpts "npm" false "/home/ci/build" ["zod"]) /\
  map spawn_cmd (spawned host_ok (runPkgManagerInstall scenario1)) =
    map spawn_cmd
      (spawned host_fails
         (runPkgManagerInstall (mkOpts "npm" false "/home/ci/build" ["zod"]))) /\
  map spawn_cwd (spawned host_ok (runPkgManagerInstall scenario1)) =
    ["/tmp/proj"] /\
  map spawn_cwd
    (spawned host_fails
       (runPkgManagerInstall (mkOpts "npm" false "/home/ci/build" ["zod"]))) =
    ["/home/ci/build"].
Proof.
  apply (command_ignores_projectDir host_ok host_fails scenario1
           (mkOpts "npm" false "/home/ci/build" ["zod"]));
    reflexivity.
Defined.

(** * Further properties of [runPkgManagerInstall] *)

(** ** More lemmas on [join], [split] and tokens *)

Lemma startsWith_append_both (p a b : string) :
  Js.startsWith (p ++ a) (p ++ b) = Js.startsWith a b.
Proof.
  induction p as [|c p IH]; simpl; [reflexivity |].
  now rewrite Ascii.eqb_refl, IH.
Qed.

Lemma join_cons (sep p : string) (after : list string) :
  Js.join sep (p :: after) =
    p ++ match after with [] => "" | _ => sep end ++ Js.join sep after.
Proof.
  destruct after as [|q after]; simpl; [now rewrite append_nil_r | reflexivity].
Qed.

Lemma join_app (sep : string) (xs ys : list string) :
  Js.join sep (xs ++ ys) =
    Js.join sep xs
      ++ match xs, ys with
         | _ :: _, _ :: _ => sep
         | _, _ => ""
         end
      ++ Js.join sep ys.
Proof.
  destruct ys as [|y ys].
  - rewrite app_nil_r. destruct xs; simpl; now rewrite ?append_nil_r.
  - rewrite join_middle, join_cons.
    destruct xs as [|x xs]; [reflexivity |].
    now rewrite !append_assoc.
Qed.

Lemma words_token (p : string) : token p = true -> words p = [p].
Proof.
  intros H. unfold words, pieces.
  rewrite (split_no_space _ (token_no_space _ H)). cbn [filter].
  unfold token in H. apply andb_true_iff in H as [H _]. now rewrite H.
Qed.

(** The tokens of the joined strings are the tokens of each, in order. *)
Lemma words_join (ps : list string) :
  words (Js.join " " ps) = flat_map words ps.
Proof.
  induction ps as [|p ps IH]; [reflexivity |].
  destruct ps as [|q ps].
  - cbn [Js.join flat_map]. now rewrite app_nil_r.
  - change (Js.join " " (p :: q :: ps))
      with (p ++ String " " (Js.join " " (q :: ps))).
    unfold words at 1. unfold pieces.
    rewrite split_append_sep, words_append.
    change (flat_map words (p :: q :: ps))
      with (words p ++ flat_map words (q :: ps))%list.
    rewrite <- IH. reflexivity.
Qed.

Lemma flat_map_words_tokens (ps : list string) :
  forallb token ps = true -> flat_map words ps = ps.
Proof.
  induction ps as [|p ps IH]; [reflexivity |].
  cbn [forallb flat_map]. intros H. apply andb_true_iff in H as [Hp Hps].
  now rewrite (words_token _ Hp), (IH Hps).
Qed.

Lemma pieces_no_space (s : string) : no_space s = true -> pieces s = [s].
Proof. apply split_no_space. Qed.

(** The pieces of the joined tokens tell the tokens. *)
Lemma pieces_join_tokens_inj (ps qs : list string) :
  forallb token ps = true -> forallb token qs = true ->
  pieces (Js.join " " ps) = pieces (Js.join " " qs) -> ps = qs.
Proof.
  assert (one : forall rs, forallb token rs = true -> rs <> [""]).
  { intros rs H E. subst rs. discriminate. }
  assert (full : forall rs, rs <> [] -> forallb token rs = true ->
                            pieces (Js.join " " rs) = rs).
  { intros rs Hne H. apply split_join; [assumption |].
    clear Hne. induction rs as [|r rs IH]; [reflexivity |].
    cbn [forallb] in *. apply andb_true_iff in H as [Hr Hrs].
    now rewrite (token_no_space _ Hr), IH. }
  intros Hp Hq E.
  destruct ps as [|p ps], qs as [|q qs]; [reflexivity | | |].
  - rewrite (full (q :: qs)) in E by (discriminate || assumption).
    symmetry in E. now apply one in E.
  - rewrite (full (p :: ps)) in E by (discriminate || assumption).
    now apply one in E.
  - rewrite !full in E by (discriminate || assumption). exact E.
Qed.

Lemma flag_inj (d1 d2 : bool) : flag d1 = flag d2 -> d1 = d2.
Proof. destruct d1, d2; (reflexivity || discriminate). Qed.

Lemma installCmd_verb (pm : PackageManager) :
  installCmd pm = pm ++ " " ++ verb pm.
Proof. unfold installCmd, verb. now destruct (String.eqb pm "yarn"). Qed.

Lemma run_run_with {A : Type} (host : Host) (m : Async A) :
  run host m = run_with (execa host) m.
Proof.
  induction m as [a | e | cmd o k IH]; cbn [run run_with]; try reflexivity.
  destruct (execa host cmd o) as [[out | e] cs]; [| reflexivity].
  now rewrite IH.
Qed.

(** ** What the shell is given *)

(** X1: for a request whose manager and package names are single tokens,
    the tokens of the command are the manager, the verb ("add" for yarn,
    "install" otherwise), "-D" when [devMode] is set, and then the packages
    as they were given; this covers the empty [packages] as well. *)
Theorem argv_of_tokens (opts : Opts) :
  token (packageManager opts) = true ->
  forallb token (packages opts) = true ->
  words (fullCmd opts) =
    (packageManager opts :: verb (packageManager opts)
       :: (if devMode opts then ["-D"] else []) ++ packages opts)%list.
Proof.
  intros Hpm Hps.
  rewrite words_fullCmd, words_installCmd, words_flag, words_join.
  rewrite (words_token _ Hpm), (flat_map_words_tokens _ Hps).
  reflexivity.
Qed.

Lemma argv_of_tokens_witness :
  words (fullCmd pnpm_dev) = ["pnpm"; "install"; "-D"; "prisma"; "zod@3.22.0"].
Proof. apply (argv_of_tokens pnpm_dev); reflexivity. Defined.

(** X2: nothing is quoted or escaped.  For every request the tokens of the
    command are those of the manager string, the verb, "-D" when [devMode]
    is set, and then the tokens of each package string in order: a package
    string with spaces in it gives several tokens, an empty one gives
    none. *)
Theorem tokens_without_quoting (opts : Opts) :
  words (fullCmd opts) =
    (words (packageManager opts)
       ++ verb (packageManager opts)
       :: (if devMode opts then ["-D"] else [])
       ++ flat_map words (packages opts))%list.
Proof.
  rewrite words_fullCmd, words_installCmd, words_flag, words_join.
  now rewrite <- app_assoc.
Qed.

(** X3: for requests whose manager has no space in it and whose package
    names are single tokens, the command tells the request: two such
    requests with the same command have the same manager, the same
    [devMode] and the same packages. *)
Theorem command_determines_request (o1 o2 : Opts) :
  no_space (packageManager o1) = true ->
  no_space (packageManager o2) = true ->
  forallb token (packages o1) = true ->
  forallb token (packages o2) = true ->
  fullCmd o1 = fullCmd o2 ->
  packageManager o1 = packageManager o2 /\
  devMode o1 = devMode o2 /\
  packages o1 = packages o2.
Proof.
  intros Hm1 Hm2 Hp1 Hp2 E.
  apply (f_equal pieces) in E.
  rewrite !pieces_fullCmd, !pieces_installCmd, !pieces_flag in E.
  rewrite (pieces_no_space _ Hm1), (pieces_no_space _ Hm2) in E.
  cbn [app] in E. injection E as Epm _ Eflag Eps.
  repeat split.
  - exact Epm.
  - now apply flag_inj.
  - now apply pieces_join_tokens_inj.
Qed.

Lemma command_determines_request_witness :
  packageManager scenario2 = "yarn" /\
  devMode scenario2 = true /\
  packages scenario2 = ["typescript"; "eslint"].
Proof.
  apply (command_determines_request scenario2
           (mkOpts "yarn" true "/elsewhere" ["typescript"; "eslint"]));
    reflexivity.
Defined.

(** X4: a space inside a package string cannot be told from the space
    between two packages: the request with the one string [a ++ " " ++ b]
    and the request with the two strings [a] and [b] in its place build the
    same command and ask for the same child process on every host. *)
Theorem space_in_package_splits_it
        (host : Host) (pm : PackageManager) (dev : bool) (dir : string)
        (before : list string) (a b : string) (after : list string) :
  fullCmd (mkOpts pm dev dir (before ++ (a ++ " " ++ b) :: after)) =
    fullCmd (mkOpts pm dev dir (before ++ a :: b :: after)) /\
  run host
      (runPkgManagerInstall
         (mkOpts pm dev dir (before ++ (a ++ " " ++ b) :: after))) =
    run host
      (runPkgManagerInstall (mkOpts pm dev dir (before ++ a :: b :: after))).
Proof.
  assert (E : fullCmd (mkOpts pm dev dir (before ++ (a ++ " " ++ b) :: after))
              = fullCmd (mkOpts pm dev dir (before ++ a :: b :: after))).
  { unfold fullCmd. cbn [packageManager devMode packages].
    do 2 f_equal. f_equal. f_equal.
    rewrite !join_middle, (join_cons " " b after).
    now rewrite !append_assoc. }
  split; [exact E |].
  rewrite !run_runPkgManagerInstall. cbn [projectDir]. now rewrite E.
Qed.

(** X5: the verb is "add" for the manager "yarn" and for no other string,
    and "install" for every string but "yarn": the command starts with the
    manager followed by " add " exactly when the manager is "yarn", and with
    the manager followed by " install " exactly when it is not. *)
Theorem add_only_for_yarn (opts : Opts) :
  (Js.startsWith (packageManager opts ++ " add ") (fullCmd opts) = true
   <-> packageManager opts = "yarn") /\
  (Js.startsWith (packageManager opts ++ " install ") (fullCmd opts) = true
   <-> packageManager opts <> "yarn").
Proof.
  unfold fullCmd. rewrite installCmd_verb, !append_assoc.
  rewrite !startsWith_append_both. unfold verb.
  destruct (String.eqb (packageManager opts) "yarn") eqn:E.
  - apply String.eqb_eq in E. cbn. split; split; intros H;
      (reflexivity || congruence || discriminate).
  - apply String.eqb_neq in E. cbn. split; split; intros H;
      (reflexivity || congruence || discriminate).
Qed.

Lemma add_only_for_yarn_witness :
  Js.startsWith "yarn add " (fullCmd scenario2) = true /\
  Js.startsWith "pnpm install " (fullCmd pnpm_dev) = true.
Proof.
  split.
  - apply (proj2 (proj1 (add_only_for_yarn scenario2))). reflexivity.
  - apply (proj2 (proj2 (add_only_for_yarn pnpm_dev))). discriminate.
Defined.

(** ** What the function does with [execa] *)

(** X6: whatever the imported [execa] does, the function calls it once and
    passes its fate on: it rejects with the very error [execa] rejected
    with (nothing is caught, wrapped or retried), it resolves with no value
    when [execa] is fulfilled, whatever the output was, and the children
    asked for are those of that one call. *)
Theorem execa_fate_passed_on (impl : ExecaImpl) (opts : Opts) :
  run_with impl (runPkgManagerInstall opts) =
    (match fst (impl (fullCmd opts) {| cwd := projectDir opts |}) with
     | Fulfilled _ => Fulfilled tt
     | Rejected e => Rejected e
     end,
     snd (impl (fullCmd opts) {| cwd := projectDir opts |})).
Proof.
  rewrite runPkgManagerInstall_call. cbn [run_with].
  destruct (impl _ _) as [[out | e] cs]; cbn [fst snd]; [| reflexivity].
  now rewrite app_nil_r.
Qed.

(** ** Several packages in one call *)

(** X7: the command for the packages [ps ++ qs] is the command for [ps]
    followed by the joined [qs], with one space in between when both lists
    have an element (the command for an empty [ps] already ends with its
    space). *)
Theorem packages_concatenate
        (pm : PackageManager) (dev : bool) (dir : string)
        (ps qs : list string) :
  fullCmd (mkOpts pm dev dir (ps ++ qs)) =
    fullCmd (mkOpts pm dev dir ps)
      ++ match ps, qs with
         | _ :: _, _ :: _ => " "
         | _, _ => ""
         end
      ++ Js.join " " qs.
Proof.
  unfold fullCmd. cbn [packageManager devMode packages].
  now rewrite join_app, !append_assoc.
Qed.
